(** * Dual-token AI model tokenization demo: ledger, revenue split, governance

    A shallow embedding of the state-transition core of
    [decentralized_ai_model_tokenization_interactive_mvp_react.jsx]: the
    handlers of the [App] component ([buyMST], [airdropGOV], [stakeGov],
    [unstakeGov], [simulateUsage], [claimRevenue], [createProposal], [vote],
    [execute]) and the settings sliders, each as a function from the current
    [AppState] to the next one together with the toast it raises.

    Every amount in the source is a JavaScript [number], an IEEE-754 double.
    The handlers are written once, over an interface [JsArith] of the
    arithmetic they use, and the interface is instantiated twice:
    - [exact]: canonical rationals [Qc], the arithmetic the specification
      reasons in;
    - [binary64]: Rocq's primitive floats, the arithmetic the engine runs.
    Laws that need field reasoning are proved on [exact]; scenarios are
    evaluated on both.

    What is not modelled: rendering, local storage, the description of a
    toast and the numbers interpolated in its title, ISO date strings (a
    deadline is the number of milliseconds [new Date(p.endsAt).getTime()]
    yields), and [crypto.randomUUID], [nowISO] and [Date.now], whose results
    are arguments of the handlers that call them. *)

From Stdlib Require Import ZArith QArith Qcanon Qround Qabs.
From Stdlib Require Import List String Ascii Bool Lia Lqa.
From Stdlib Require Import Floats Uint63.
Import ListNotations.

Set Warnings "-inexact-float".

(** ** The arithmetic of a JavaScript number *)

Class JsArith (num : Type) : Type := {
  lit : Z -> num;                 (* an integer literal *)
  half : num;                     (* the literal 0.5 *)
  add : num -> num -> num;
  sub : num -> num -> num;
  mul : num -> num -> num;
  div : num -> num -> num;
  floor : num -> num;             (* Math.floor *)
  max : num -> num -> num;        (* Math.max *)
  ltb : num -> num -> bool;       (* a < b ; a > b is b < a *)
  leb : num -> num -> bool;       (* a <= b *)
  eqb : num -> num -> bool;       (* a === b *)
  truthy : num -> bool            (* ToBoolean: false on 0, -0 and NaN *)
}.

Declare Scope js_scope.
Delimit Scope js_scope with js.
Notation "x + y" := (add x y) : js_scope.
Notation "x - y" := (sub x y) : js_scope.
Notation "x * y" := (mul x y) : js_scope.
Notation "x / y" := (div x y) : js_scope.
Notation "x <? y" := (ltb x y) : js_scope.
Notation "x >? y" := (ltb y x) : js_scope.
Notation "x <=? y" := (leb x y) : js_scope.
Notation "x === y" := (eqb x y) (at level 70, no associativity) : js_scope.

(** *** Exact rationals *)

Definition Qc_of_Z (z : Z) : Qc := Q2Qc (inject_Z z).

Definition Qc_ltb (x y : Qc) : bool :=
  match (x ?= y)%Qc with Lt => true | _ => false end.

Definition Qc_leb (x y : Qc) : bool :=
  match (x ?= y)%Qc with Gt => false | _ => true end.

Definition Qc_eqb (x y : Qc) : bool :=
  match (x ?= y)%Qc with Eq => true | _ => false end.

Definition Qc_max (x y : Qc) : Qc := if Qc_ltb x y then y else x.

Definition Qc_floor (x : Qc) : Qc := Qc_of_Z (Qfloor x).

#[export] Instance exact : JsArith Qc := {|
  lit := Qc_of_Z;
  half := Q2Qc (1 # 2);
  add := Qcplus;
  sub := Qcminus;
  mul := Qcmult;
  div := Qcdiv;
  floor := Qc_floor;
  max := Qc_max;
  ltb := Qc_ltb;
  leb := Qc_leb;
  eqb := Qc_eqb;
  truthy := fun x => negb (Qc_eqb x (Qc_of_Z 0))
|}.

(** *** IEEE-754 binary64 *)

Definition float_of_Z (z : Z) : float :=
  match z with
  | Z0 => 0%float
  | Zpos _ => PrimFloat.of_uint63 (Uint63.of_Z z)
  | Zneg p => (- PrimFloat.of_uint63 (Uint63.of_Z (Zpos p)))%float
  end.

(** [Math.floor] on a double: a finite value [m * 2^e] with [e < 0] is cut to
    its integer part (below 2^53, so exactly representable), towards minus
    infinity; zeros, infinities, NaN and values with [0 <= e] are integers or
    fixed points already. *)
Definition float_floor (x : float) : float :=
  match Prim2SF x with
  | S754_finite s m e =>
      if (0 <=? e)%Z then x
      else
        let q := Z.shiftr (Zpos m) (- e) in
        if s then
          if (Z.shiftl q (- e) =? Zpos m)%Z
          then (- float_of_Z q)%float
          else (- float_of_Z (q + 1))%float
        else float_of_Z q
  | _ => x
  end.

(** [Math.max] of two doubles: NaN if either is NaN, and +0 above -0. *)
Definition float_max (x y : float) : float :=
  if PrimFloat.is_nan x || PrimFloat.is_nan y then PrimFloat.nan
  else if PrimFloat.ltb x y then y
  else if PrimFloat.ltb y x then x
  else if PrimFloat.get_sign x then y else x.

#[export] Instance binary64 : JsArith float := {|
  lit := float_of_Z;
  half := 0.5%float;
  add := PrimFloat.add;
  sub := PrimFloat.sub;
  mul := PrimFloat.mul;
  div := PrimFloat.div;
  floor := float_floor;
  max := float_max;
  ltb := PrimFloat.ltb;
  leb := PrimFloat.leb;
  eqb := PrimFloat.eqb;
  truthy := fun x => negb (PrimFloat.is_nan x || PrimFloat.is_zero x)
|}.

(** ** Data model *)

Section Model.

Context {num : Type} `{JsArith num}.
Local Open Scope string_scope.
Local Open Scope js_scope.

Record Wallet : Type := {
  address : string;
  mst : num;               (* security token balance *)
  gov : num;               (* governance token balance *)
  usdc : num;              (* payment token for API & purchases *)
  claimableUSDC : num;     (* accrued revenue share (pull model) *)
  votingPower : num;       (* derived from staked GOV *)
  stakedGov : num
}.

Record UsageEvent : Type := {
  eid : string;
  ts : string;
  caller : string;
  feeUSDC : num;
  version : string;
  note : option string
}.

Record Params : Type := {
  apiFeeUSDC : num;
  revenueSharePct : num;   (* to MST holders *)
  daoTreasuryPct : num;    (* to DAO treasury *)
  buybackPct : num;        (* buyback MST and burn *)
  buybackActive : bool;
  govStakeBoost : num      (* x voting power when staked *)
}.

(** [Partial<Params>]: a key is either absent or carries a value. *)
Record ParamChanges : Type := {
  chApiFeeUSDC : option num;
  chRevenueSharePct : option num;
  chDaoTreasuryPct : option num;
  chBuybackPct : option num;
  chBuybackActive : option bool;
  chGovStakeBoost : option num
}.

Record Proposal : Type := {
  pid : string;
  title : string;
  description : string;
  createdAt : string;
  endsAt : Z;              (* new Date(p.endsAt).getTime(), in ms *)
  paramChanges : ParamChanges;
  forVotes : num;
  againstVotes : num;
  abstainVotes : num;
  executed : bool
}.

Record AppState : Type := {
  wallets : list Wallet;
  connected : option string;
  totalSupplyMST : num;
  totalSupplyGOV : num;
  circulatingMST : num;
  circulatingGOV : num;
  treasuryUSDC : num;
  buybackPoolUSDC : num;
  usage : list UsageEvent;
  proposals : list Proposal;
  modelVersion : string;
  params : Params
}.

(** A handler returns the next state and the title of the toast it raises,
    if it raises one. *)
Definition Outcome : Type := (AppState * option string)%type.

(** *** Object spread with overridden fields *)

Definition withWallets (s : AppState) (ws : list Wallet) : AppState :=
  {| wallets := ws; connected := connected s;
     totalSupplyMST := totalSupplyMST s; totalSupplyGOV := totalSupplyGOV s;
     circulatingMST := circulatingMST s; circulatingGOV := circulatingGOV s;
     treasuryUSDC := treasuryUSDC s; buybackPoolUSDC := buybackPoolUSDC s;
     usage := usage s; proposals := proposals s;
     modelVersion := modelVersion s; params := params s |}.

Definition withConnected (s : AppState) (c : option string) : AppState :=
  {| wallets := wallets s; connected := c;
     totalSupplyMST := totalSupplyMST s; totalSupplyGOV := totalSupplyGOV s;
     circulatingMST := circulatingMST s; circulatingGOV := circulatingGOV s;
     treasuryUSDC := treasuryUSDC s; buybackPoolUSDC := buybackPoolUSDC s;
     usage := usage s; proposals := proposals s;
     modelVersion := modelVersion s; params := params s |}.

Definition withCirculatingMST (s : AppState) (c : num) : AppState :=
  {| wallets := wallets s; connected := connected s;
     totalSupplyMST := totalSupplyMST s; totalSupplyGOV := totalSupplyGOV s;
     circulatingMST := c; circulatingGOV := circulatingGOV s;
     treasuryUSDC := treasuryUSDC s; buybackPoolUSDC := buybackPoolUSDC s;
     usage := usage s; proposals := proposals s;
     modelVersion := modelVersion s; params := params s |}.

Definition withCirculatingGOV (s : AppState) (c : num) : AppState :=
  {| wallets := wallets s; connected := connected s;
     totalSupplyMST := totalSupplyMST s; totalSupplyGOV := totalSupplyGOV s;
     circulatingMST := circulatingMST s; circulatingGOV := c;
     treasuryUSDC := treasuryUSDC s; buybackPoolUSDC := buybackPoolUSDC s;
     usage := usage s; proposals := proposals s;
     modelVersion := modelVersion s; params := params s |}.

Definition withProposals (s : AppState) (ps : list Proposal) : AppState :=
  {| wallets := wallets s; connected := connected s;
     totalSupplyMST := totalSupplyMST s; totalSupplyGOV := totalSupplyGOV s;
     circulatingMST := circulatingMST s; circulatingGOV := circulatingGOV s;
     treasuryUSDC := treasuryUSDC s; buybackPoolUSDC := buybackPoolUSDC s;
     usage := usage s; proposals := ps;
     modelVersion := modelVersion s; params := params s |}.

Definition withParams (s : AppState) (p : Params) : AppState :=
  {| wallets := wallets s; connected := connected s;
     totalSupplyMST := totalSupplyMST s; totalSupplyGOV := totalSupplyGOV s;
     circulatingMST := circulatingMST s; circulatingGOV := circulatingGOV s;
     treasuryUSDC := treasuryUSDC s; buybackPoolUSDC := buybackPoolUSDC s;
     usage := usage s; proposals := proposals s;
     modelVersion := modelVersion s; params := p |}.

(** [const seed]: three funded wallets, nobody connected, the 90/5/5 split. *)
Definition seedWallet (a : string) (m g u : Z) : Wallet :=
  {| address := a; mst := lit m; gov := lit g; usdc := lit u;
     claimableUSDC := lit 0; votingPower := lit 0; stakedGov := lit 0 |}.

Definition INITIAL_SECURITY_SUPPLY : Z := 1000000.
Definition INITIAL_GOV_SUPPLY : Z := 10000000.

Definition seed : AppState :=
  {| wallets :=
       [ seedWallet "0xDeF1A1C0FFEE000000000000000000000000beef" 100000 500000 10000;
         seedWallet "0xA11CE000000000000000000000000000000c0de" 10000 100000 5000;
         seedWallet "0xB0B0000000000000000000000000000000b0b01" 2500 25000 1000 ];
     connected := None;
     totalSupplyMST := lit INITIAL_SECURITY_SUPPLY;
     totalSupplyGOV := lit INITIAL_GOV_SUPPLY;
     circulatingMST := lit 100000 + lit 10000 + lit 2500;
     circulatingGOV := lit 500000 + lit 100000 + lit 25000;
     treasuryUSDC := lit 0;
     buybackPoolUSDC := lit 0;
     usage := [];
     proposals := [];
     modelVersion := "v1.0.0";
     params :=
       {| apiFeeUSDC := lit 1;
          revenueSharePct := lit 90;
          daoTreasuryPct := lit 5;
          buybackPct := lit 5;
          buybackActive := true;
          govStakeBoost := lit 2 |} |}.

(** ** Connected wallet helpers *)

(** [state.wallets.find(w => w.address === state.connected)] *)
Definition me (s : AppState) : option Wallet :=
  match connected s with
  | None => None
  | Some a => find (fun w => String.eqb (address w) a) (wallets s)
  end.

Definition mstHolders (s : AppState) : list Wallet :=
  filter (fun w => mst w >? lit 0) (wallets s).

Definition totalMSTHeld (s : AppState) : num :=
  fold_left (fun a b => a + mst b) (mstHolders s) (lit 0).

(** [connect] reads [state.wallets[0].address]; on an empty wallet list the
    read throws before any update. *)
Definition connect (s : AppState) : Outcome :=
  match wallets s with
  | [] => (s, None)
  | w :: _ => (withConnected s (Some (address w)), Some "Wallet connected")
  end.

Definition disconnect (s : AppState) : Outcome :=
  (withConnected s None, None).

(** ** Wallet and supply operations *)

Definition buyMST (usdcAmount : num) (s : AppState) : Outcome :=
  match me s with
  | None => (s, None)
  | Some m =>
      if usdc m <? usdcAmount then (s, Some "Insufficient USDC")
      else
        let price := half in
        let bought := floor (usdcAmount / price) in
        if bought <=? lit 0 then (s, None)
        else
          (withCirculatingMST
             (withWallets s
                (map (fun w =>
                        if String.eqb (address w) (address m)
                        then {| address := address w;
                                mst := mst w + bought;
                                gov := gov w;
                                usdc := usdc w - bought * price;
                                claimableUSDC := claimableUSDC w;
                                votingPower := votingPower w;
                                stakedGov := stakedGov w |}
                        else w)
                     (wallets s)))
             (circulatingMST s + bought),
           Some "Purchased MST")
  end.

Definition airdropGOV (amount : num) (s : AppState) : Outcome :=
  match me s with
  | None => (s, None)
  | Some m =>
      (withCirculatingGOV
         (withWallets s
            (map (fun w =>
                    if String.eqb (address w) (address m)
                    then {| address := address w;
                            mst := mst w;
                            gov := gov w + amount;
                            usdc := usdc w;
                            claimableUSDC := claimableUSDC w;
                            votingPower := votingPower w;
                            stakedGov := stakedGov w |}
                    else w)
                 (wallets s)))
         (circulatingGOV s + amount),
       Some "Airdrop received")
  end.

Definition stakeGov (amount : num) (s : AppState) : Outcome :=
  match me s with
  | None => (s, None)
  | Some m =>
      if gov m <? amount then (s, Some "Not enough GOV to stake")
      else
        (withWallets s
           (map (fun w =>
                   if String.eqb (address w) (address m)
                   then {| address := address w;
                           mst := mst w;
                           gov := gov w - amount;
                           usdc := usdc w;
                           claimableUSDC := claimableUSDC w;
                           votingPower :=
                             (stakedGov w + amount) * govStakeBoost (params s);
                           stakedGov := stakedGov w + amount |}
                   else w)
                (wallets s)),
         Some "Staked GOV")
  end.

Definition unstakeGov (amount : num) (s : AppState) : Outcome :=
  match me s with
  | None => (s, None)
  | Some m =>
      if stakedGov m <? amount then (s, Some "Not enough staked GOV")
      else
        (withWallets s
           (map (fun w =>
                   if String.eqb (address w) (address m)
                   then {| address := address w;
                           mst := mst w;
                           gov := gov w + amount;
                           usdc := usdc w;
                           claimableUSDC := claimableUSDC w;
                           votingPower :=
                             (stakedGov w - amount) * govStakeBoost (params s);
                           stakedGov := stakedGov w - amount |}
                   else w)
                (wallets s)),
         Some "Unstaked GOV")
  end.

Definition claimRevenue (s : AppState) : Outcome :=
  match me s with
  | None => (s, None)
  | Some m =>
      if claimableUSDC m <=? lit 0 then (s, Some "Nothing to claim yet")
      else
        (withWallets s
           (map (fun w =>
                   if String.eqb (address w) (address m)
                   then {| address := address w;
                           mst := mst w;
                           gov := gov w;
                           usdc := usdc w + claimableUSDC w;
                           claimableUSDC := lit 0;
                           votingPower := votingPower w;
                           stakedGov := stakedGov w |}
                   else w)
                (wallets s)),
         Some "Revenue claimed")
  end.


(** ** Simulated API usage: revenue split and buyback *)

Record UsageTotals : Type := {
  events : list UsageEvent;
  revenueToHolders : num;
  toTreasury : num;
  toBuyback : num
}.

(** One turn of the [for] loop; [fresh i] is what [crypto.randomUUID()] and
    [nowISO()] return in turn [i]. *)
Definition usageCall (s : AppState) (m : Wallet) (fresh : nat -> string * string)
    (i : nat) (acc : UsageTotals) : UsageTotals :=
  let fee := apiFeeUSDC (params s) in
  {| events :=
       (events acc ++
        [ {| eid := fst (fresh i); ts := snd (fresh i); caller := address m;
             feeUSDC := fee; version := modelVersion s;
             note := Some "API call" |} ])%list;
     revenueToHolders :=
       revenueToHolders acc + (fee * revenueSharePct (params s)) / lit 100;
     toTreasury := toTreasury acc + (fee * daoTreasuryPct (params s)) / lit 100;
     toBuyback := toBuyback acc + (fee * buybackPct (params s)) / lit 100 |}.

(** [for (let i = 0; i < calls; i++)], with [n] turns left at index [i]. *)
Fixpoint usageLoop (s : AppState) (m : Wallet) (fresh : nat -> string * string)
    (n i : nat) (acc : UsageTotals) : UsageTotals :=
  match n with
  | O => acc
  | S n' => usageLoop s m fresh n' (S i) (usageCall s m fresh i acc)
  end.

Definition usageTotals (s : AppState) (m : Wallet)
    (fresh : nat -> string * string) (calls : nat) : UsageTotals :=
  usageLoop s m fresh calls 0
    {| events := []; revenueToHolders := lit 0; toTreasury := lit 0;
       toBuyback := lit 0 |}.

(** [const updates = state.wallets.map(...)]: the pro-rata accrual. *)
Definition distribute (total revenue : num) (ws : list Wallet) : list Wallet :=
  map (fun w =>
         if mst w <=? lit 0 then w
         else
           let share := mst w / total in
           let added := revenue * share in
           {| address := address w; mst := mst w; gov := gov w; usdc := usdc w;
              claimableUSDC := claimableUSDC w + added;
              votingPower := votingPower w; stakedGov := stakedGov w |})
      ws.

Record Buyback : Type := {
  newCirculatingMST : num;
  poolAfter : num;
  burnMST : num
}.

(** The buyback and burn step on the pool after accumulation. *)
Definition buyback (s : AppState) (accumulated : num) : Buyback :=
  let pool := buybackPoolUSDC s + accumulated in
  if buybackActive (params s) && (totalMSTHeld s >? lit 0) && (pool >? lit 0)
  then
    let price := half in
    let burn := floor (pool / price) in
    {| newCirculatingMST := max (lit 0) (circulatingMST s - burn);
       poolAfter := pool - burn * price;
       burnMST := burn |}
  else
    {| newCirculatingMST := circulatingMST s; poolAfter := pool;
       burnMST := lit 0 |}.

(** [calls] is the number of turns the loop makes: [UsageSimulator] passes
    [Math.max(1, calls)] of a [parseInt] result. *)
Definition simulateUsage (calls : nat) (fresh : nat -> string * string)
    (s : AppState) : Outcome :=
  match me s with
  | None => (s, Some "Connect a wallet to simulate")
  | Some m =>
      let t := usageTotals s m fresh calls in
      let updates := distribute (totalMSTHeld s) (revenueToHolders t) (wallets s) in
      let b := buyback s (toBuyback t) in
      ({| wallets := updates;
          connected := connected s;
          totalSupplyMST := totalSupplyMST s;
          totalSupplyGOV := totalSupplyGOV s;
          circulatingMST := newCirculatingMST b;
          circulatingGOV := circulatingGOV s;
          treasuryUSDC := treasuryUSDC s + toTreasury t;
          buybackPoolUSDC := poolAfter b;
          usage := (usage s ++ events t)%list;
          proposals := proposals s;
          modelVersion := modelVersion s;
          params := params s |},
       Some "Simulated API calls")
  end.

(** ** Governance: propose, vote, execute *)

Inductive Choice : Type := For | Against | Abstain.

(** [newId] and [now] are what [crypto.randomUUID()] and [nowISO()] return. *)
Definition createProposal (newId now : string) (ttl desc : string) (ends : Z)
    (changes : ParamChanges) (s : AppState) : Outcome :=
  let newP :=
    {| pid := newId; title := ttl; description := desc; createdAt := now;
       endsAt := ends; paramChanges := changes;
       forVotes := lit 0; againstVotes := lit 0; abstainVotes := lit 0;
       executed := false |} in
  (withProposals s (newP :: proposals s), Some "Proposal created").

Definition addVote (p : Proposal) (choice : Choice) (power : num) : Proposal :=
  {| pid := pid p; title := title p; description := description p;
     createdAt := createdAt p; endsAt := endsAt p;
     paramChanges := paramChanges p;
     forVotes := match choice with For => forVotes p + power | _ => forVotes p end;
     againstVotes :=
       match choice with Against => againstVotes p + power | _ => againstVotes p end;
     abstainVotes :=
       match choice with Abstain => abstainVotes p + power | _ => abstainVotes p end;
     executed := executed p |}.

(** [me.votingPower || me.gov] *)
Definition votePower (m : Wallet) : num :=
  if truthy (votingPower m) then votingPower m else gov m.

(** [now] is [Date.now()]. *)
Definition vote (id : string) (choice : Choice) (now : Z) (s : AppState) : Outcome :=
  match me s with
  | None => (s, None)
  | Some m =>
      let power := votePower m in
      if power <=? lit 0 then (s, Some "No voting power")
      else
        (withProposals s
           (map (fun p =>
                   if negb (String.eqb (pid p) id) then p
                   else if (endsAt p <? now)%Z then p
                   else addVote p choice power)
                (proposals s)),
         Some "Vote cast")
  end.

(** [{ ...s.params, ...p.paramChanges }] *)
Definition mergeParams (p : Params) (c : ParamChanges) : Params :=
  {| apiFeeUSDC := match chApiFeeUSDC c with Some v => v | None => apiFeeUSDC p end;
     revenueSharePct :=
       match chRevenueSharePct c with Some v => v | None => revenueSharePct p end;
     daoTreasuryPct :=
       match chDaoTreasuryPct c with Some v => v | None => daoTreasuryPct p end;
     buybackPct := match chBuybackPct c with Some v => v | None => buybackPct p end;
     buybackActive :=
       match chBuybackActive c with Some v => v | None => buybackActive p end;
     govStakeBoost :=
       match chGovStakeBoost c with Some v => v | None => govStakeBoost p end |}.

(** The text [execute] appends to a passed proposal: two line feeds, the
    check-mark emoji U+2705 in UTF-8, and [ Executed]. *)
Definition executedSuffix : string :=
  String (ascii_of_nat 10) (String (ascii_of_nat 10)
    (String (ascii_of_nat 226) (String (ascii_of_nat 156)
      (String (ascii_of_nat 133) " Executed")))).

Definition markExecuted (p : Proposal) (desc : string) : Proposal :=
  {| pid := pid p; title := title p; description := desc;
     createdAt := createdAt p; endsAt := endsAt p;
     paramChanges := paramChanges p;
     forVotes := forVotes p; againstVotes := againstVotes p;
     abstainVotes := abstainVotes p; executed := true |}.

(** The [proposals.map] callback of [execute]. *)
Definition executeProposal (id : string) (now : Z) (p : Proposal) : Proposal :=
  if negb (String.eqb (pid p) id) || executed p || (endsAt p >? now)%Z then p
  else
    let passed := forVotes p >? againstVotes p in
    if negb passed then markExecuted p (description p)
    else markExecuted p (description p ++ executedSuffix).

(** The [params] thunk of [execute]. *)
Definition executeParams (id : string) (now : Z) (s : AppState) : Params :=
  match find (fun pp => String.eqb (pid pp) id) (proposals s) with
  | None => params s
  | Some prop =>
      if (endsAt prop >? now)%Z || Bool.eqb (executed prop) true then params s
      else if forVotes prop <=? againstVotes prop then params s
      else mergeParams (params s) (paramChanges prop)
  end.

Definition execute (id : string) (now : Z) (s : AppState) : Outcome :=
  (withParams
     (withProposals s (map (executeProposal id now) (proposals s)))
     (executeParams id now s),
   Some "Proposal executed").

(** ** Settings panel *)

Definition setApiFeeUSDC (v : num) (s : AppState) : AppState :=
  withParams s
    {| apiFeeUSDC := v;
       revenueSharePct := revenueSharePct (params s);
       daoTreasuryPct := daoTreasuryPct (params s);
       buybackPct := buybackPct (params s);
       buybackActive := buybackActive (params s);
       govStakeBoost := govStakeBoost (params s) |}.

Definition setRevenueSharePct (v : num) (s : AppState) : AppState :=
  withParams s
    {| apiFeeUSDC := apiFeeUSDC (params s);
       revenueSharePct := v;
       daoTreasuryPct := max (lit 0) (lit 100 - v - buybackPct (params s));
       buybackPct := buybackPct (params s);
       buybackActive := buybackActive (params s);
       govStakeBoost := govStakeBoost (params s) |}.

Definition setBuybackPct (v : num) (s : AppState) : AppState :=
  withParams s
    {| apiFeeUSDC := apiFeeUSDC (params s);
       revenueSharePct := revenueSharePct (params s);
       daoTreasuryPct := max (lit 0) (lit 100 - v - revenueSharePct (params s));
       buybackPct := v;
       buybackActive := buybackActive (params s);
       govStakeBoost := govStakeBoost (params s) |}.

Definition setGovStakeBoost (v : num) (s : AppState) : AppState :=
  withParams s
    {| apiFeeUSDC := apiFeeUSDC (params s);
       revenueSharePct := revenueSharePct (params s);
       daoTreasuryPct := daoTreasuryPct (params s);
       buybackPct := buybackPct (params s);
       buybackActive := buybackActive (params s);
       govStakeBoost := v |}.

Definition setBuybackActive (v : bool) (s : AppState) : AppState :=
  withParams s
    {| apiFeeUSDC := apiFeeUSDC (params s);
       revenueSharePct := revenueSharePct (params s);
       daoTreasuryPct := daoTreasuryPct (params s);
       buybackPct := buybackPct (params s);
       buybackActive := v;
       govStakeBoost := govStakeBoost (params s) |}.

(** ** Self-tests *)

Definition splitSum (p : Params) : num :=
  revenueSharePct p + daoTreasuryPct p + buybackPct p.

(** The first entry of [selfTests], "Revenue split sums to 100%". *)
Definition selfTestSplit (s : AppState) : bool :=
  splitSum (params s) === lit 100.

(** ** The handlers as one transition function

    One constructor per handler and per settings control. The "Reset Demo"
    button, which replaces the whole state by [seed], is not among them. *)

Inductive Action : Type :=
| Connect
| Disconnect
| BuyMST (usdcAmount : num)
| AirdropGOV (amount : num)
| StakeGov (amount : num)
| UnstakeGov (amount : num)
| SimulateUsage (calls : nat) (fresh : nat -> string * string)
| ClaimRevenue
| CreateProposal (newId now ttl desc : string) (ends : Z) (changes : ParamChanges)
| Vote (id : string) (choice : Choice) (now : Z)
| Execute (id : string) (now : Z)
| SetApiFeeUSDC (v : num)
| SetRevenueSharePct (v : num)
| SetBuybackPct (v : num)
| SetGovStakeBoost (v : num)
| SetBuybackActive (v : bool).

Definition step (a : Action) (s : AppState) : AppState :=
  match a with
  | Connect => fst (connect s)
  | Disconnect => fst (disconnect s)
  | BuyMST v => fst (buyMST v s)
  | AirdropGOV v => fst (airdropGOV v s)
  | StakeGov v => fst (stakeGov v s)
  | UnstakeGov v => fst (unstakeGov v s)
  | SimulateUsage n fresh => fst (simulateUsage n fresh s)
  | ClaimRevenue => fst (claimRevenue s)
  | CreateProposal i n t d e c => fst (createProposal i n t d e c s)
  | Vote i c n => fst (vote i c n s)
  | Execute i n => fst (execute i n s)
  | SetApiFeeUSDC v => setApiFeeUSDC v s
  | SetRevenueSharePct v => setRevenueSharePct v s
  | SetBuybackPct v => setBuybackPct v s
  | SetGovStakeBoost v => setGovStakeBoost v s
  | SetBuybackActive v => setBuybackActive v s
  end.

Definition run (acts : list Action) (s : AppState) : AppState :=
  fold_left (fun st a => step a st) acts s.

End Model.

Arguments Wallet num : clear implicits.
Arguments UsageEvent num : clear implicits.
Arguments Params num : clear implicits.
Arguments ParamChanges num : clear implicits.
Arguments Proposal num : clear implicits.
Arguments AppState num : clear implicits.
Arguments Outcome num : clear implicits.
Arguments UsageTotals num : clear implicits.
Arguments Buyback num : clear implicits.
Arguments Action num : clear implicits.

(** ** Measures and scenario states *)

Section Scenarios.

Context {num : Type} `{JsArith num}.
Local Open Scope js_scope.

(** [sumOf l] adds the entries of [l] from the left, as [reduce] does. *)
Definition sumOf (l : list num) : num := fold_left add l (lit 0).


Definition W1 : string := "0xDeF1A1C0FFEE000000000000000000000000beef".
Definition W2 : string := "0xA11CE000000000000000000000000000000c0de".
Definition W3 : string := "0xB0B0000000000000000000000000000000b0b01".



(** The seed document with [W1] connected. *)
Definition seedConnected : AppState num := withConnected seed (Some W1).

(** The override [{ buybackPct: 7 }]. *)
Definition buybackTo7 : ParamChanges num :=
  {| chApiFeeUSDC := None; chRevenueSharePct := None; chDaoTreasuryPct := None;
     chBuybackPct := Some (lit 7); chBuybackActive := None;
     chGovStakeBoost := None |}.

(** Scenario C: one proposal with deadline 1000, [f] votes for and [a]
    against, that would set the buyback share to 7. *)
Definition scenarioCProposal (f a : Z) : Proposal num :=
  {| pid := "p1"; title := "Raise buyback"; description := "More burn";
     createdAt := "2024-01-01T00:00:00.000Z"; endsAt := 1000;
     paramChanges := buybackTo7;
     forVotes := lit f; againstVotes := lit a; abstainVotes := lit 0;
     executed := false |}.

Definition scenarioC (f a : Z) : AppState num :=
  withProposals seedConnected [scenarioCProposal f a].

(** An open proposal (deadline 1000) without votes, [W1] connected. *)
Definition openProposal : AppState num :=
  withProposals seedConnected [scenarioCProposal 0 0].


(** [W1] stakes 100 at boost 2, then the boost slider is moved to 5. *)
Definition stakedThenReboosted : AppState num :=
  run [StakeGov (lit 100); SetGovStakeBoost (lit 5)] openProposal.



Definition myStakedGov (s : AppState num) : num :=
  match me s with Some m => stakedGov m | None => lit 0 end.


(** Identifiers and timestamps for the usage log of the scenarios. *)
Definition noFresh : nat -> string * string := fun _ => (EmptyString, EmptyString).


End Scenarios.

(** ** The widgets that call the handlers *)

Section Widgets.

Context {num : Type} `{JsArith num}.
Local Open Scope string_scope.
Local Open Scope js_scope.

(** [BuyBox]: the button is disabled while [!connected || amt <= 0]. *)
Definition buyBoxClick (amt : num) (s : AppState num) : Outcome num :=
  match me s with
  | None => (s, None)
  | Some _ => if amt <=? lit 0 then (s, None) else buyMST amt s
  end.












End Widgets.

(** ** The two other self-tests *)

(** [Math.abs] and the literal [1e-6]. *)
Class JsMath (num : Type) : Type := {
  jsAbs : num -> num;
  micro : num
}.



#[export] Instance binary64Math : JsMath float := {|
  jsAbs := PrimFloat.abs;
  micro := 1e-6%float
|}.

Section SelfTests.

Context {num : Type} `{JsArith num} `{JsMath num}.
Local Open Scope js_scope.




End SelfTests.

(** * Facts about the exact arithmetic *)

Section ExactArith.

Local Open Scope Qc_scope.











End ExactArith.


Section ExactOrder.

Local Open Scope Qc_scope.



End ExactOrder.

(** * Facts that hold in any arithmetic *)

Section HandlerFacts.

Context {num : Type} `{JsArith num}.

Implicit Types (s : AppState num) (w m : Wallet num) (p q : Proposal num).


Lemma me_address s m : me s = Some m -> connected s = Some (address m).
Proof.
  unfold me. destruct (connected s) as [a|]; [|discriminate].
  intro F. apply find_some in F. destruct F as (_ & E).
  apply String.eqb_eq in E. now rewrite E.
Qed.


(** Proposal identifiers are unique: at most one proposal answers to [id]. *)
Lemma unique_pid (ps : list (Proposal num)) p q :
  NoDup (map pid ps) -> In p ps -> In q ps -> pid q = pid p -> q = p.
Proof.
  induction ps as [|r ps IH]; intros N Ip Iq E; [contradiction|].
  cbn [map] in N. inversion N as [|? ? Nin N']; subst.
  destruct Ip as [->|Ip], Iq as [->|Iq].
  - reflexivity.
  - exfalso. apply Nin. rewrite <- E. now apply in_map.
  - exfalso. apply Nin. rewrite E. now apply in_map.
  - now apply IH.
Qed.

Lemma find_pid (ps : list (Proposal num)) p :
  NoDup (map pid ps) -> In p ps ->
  find (fun pp => String.eqb (pid pp) (pid p)) ps = Some p.
Proof.
  intros N I.
  destruct (find (fun pp => String.eqb (pid pp) (pid p)) ps) as [q|] eqn:F.
  - apply find_some in F. destruct F as (Iq & E). apply String.eqb_eq in E.
    f_equal. exact (unique_pid ps p q N I Iq E).
  - exfalso. pose proof (find_none _ _ F p I) as E. cbn in E.
    now rewrite String.eqb_refl in E.
Qed.


Lemma map_fixed {A} (g : A -> A) (l : list A) :
  (forall x, In x l -> g x = x) -> map g l = l.
Proof.
  intro G. rewrite <- (map_id l) at 2. now apply map_ext_in.
Qed.

Lemma withParams_withProposals_same s :
  withParams (withProposals s (proposals s)) (params s) = s.
Proof. destruct s. reflexivity. Qed.

(** ** [execute] on a single proposal *)

Lemma executeProposal_other id now q :
  String.eqb (pid q) id = false -> executeProposal id now q = q.
Proof. intro E. unfold executeProposal. rewrite E. reflexivity. Qed.

Lemma executeProposal_executed id now q :
  executed q = true -> executeProposal id now q = q.
Proof.
  intro E. unfold executeProposal. rewrite E, orb_true_r. reflexivity.
Qed.

Lemma executeProposal_open id now q :
  (now < endsAt q)%Z -> executeProposal id now q = q.
Proof.
  intro L. unfold executeProposal.
  assert ((endsAt q >? now)%Z = true) as -> by (apply Z.gtb_lt; exact L).
  rewrite orb_true_r. reflexivity.
Qed.

Lemma executeProposal_pid id now q : pid (executeProposal id now q) = pid q.
Proof.
  unfold executeProposal.
  destruct (negb (String.eqb (pid q) id) || executed q || (endsAt q >? now)%Z);
    [reflexivity|].
  destruct (negb (ltb (againstVotes q) (forVotes q))); reflexivity.
Qed.

Lemma executeProposal_keeps_executed id now q :
  executed q = true -> executed (executeProposal id now q) = true.
Proof. intro E. now rewrite executeProposal_executed. Qed.

(** A proposal that is executed stays in the list, untouched, under
    [execute]; hence [execute] on it changes nothing at all. *)
Lemma execute_noop s id now p :
  NoDup (map pid (proposals s)) -> In p (proposals s) -> pid p = id ->
  executed p = true \/ (now < endsAt p)%Z ->
  fst (execute id now s) = s.
Proof.
  intros N I E C. subst id. unfold execute. cbn [fst].
  assert (map (executeProposal (pid p) now) (proposals s) = proposals s) as ->.
  { apply map_fixed. intros q Iq.
    destruct (String.eqb (pid q) (pid p)) eqn:Eq.
    - apply String.eqb_eq in Eq. rewrite (unique_pid _ p q N I Iq Eq).
      destruct C as [C|C];
        [now apply executeProposal_executed | now apply executeProposal_open].
    - now apply executeProposal_other. }
  assert (executeParams (pid p) now s = params s) as ->.
  { unfold executeParams. rewrite (find_pid _ p N I).
    destruct C as [C|C].
    - rewrite C. cbn [Bool.eqb]. rewrite orb_true_r. reflexivity.
    - assert ((endsAt p >? now)%Z = true) as -> by (apply Z.gtb_lt; exact C).
      reflexivity. }
  apply withParams_withProposals_same.
Qed.

(** The first [execute] past the deadline leaves the proposal executed. *)
Lemma execute_marks s id now p :
  In p (proposals s) -> pid p = id -> executed p = false -> (endsAt p <= now)%Z ->
  In (executeProposal id now p) (proposals (fst (execute id now s)))
  /\ executed (executeProposal id now p) = true.
Proof.
  intros I E X D. split.
  - unfold execute. cbn [fst proposals withParams withProposals]. now apply in_map.
  - unfold executeProposal. subst id. rewrite String.eqb_refl, X.
    assert ((endsAt p >? now)%Z = false) as ->.
    { destruct (endsAt p >? now)%Z eqn:G; [|reflexivity].
      apply Z.gtb_lt in G. lia. }
    cbn [negb orb].
    destruct (negb (ltb (againstVotes p) (forVotes p))); reflexivity.
Qed.

Lemma execute_keeps_pids s id now :
  map pid (proposals (fst (execute id now s))) = map pid (proposals s).
Proof.
  unfold execute. cbn [fst proposals withParams withProposals].
  rewrite map_map. apply map_ext. intro q. apply executeProposal_pid.
Qed.

End HandlerFacts.


Section ProRata.

Local Open Scope Qc_scope.

Implicit Types (s : AppState Qc) (w m : Wallet Qc) (ws : list (Wallet Qc)).










End ProRata.

(** ** C2: pro-rata conservation *)





(** ** Buyback and the no-holder batch *)

Section UsageFacts.

Local Open Scope Qc_scope.

Implicit Types (s : AppState Qc) (w m : Wallet Qc) (ws : list (Wallet Qc)).








End UsageFacts.

(** ** C9 and C10: the buyback step, and a batch nobody holds a share of *)

Section UsageClaims.

Local Open Scope Qc_scope.



End UsageClaims.



(** ** C3 and C4: executing a proposal *)

Section NoWayBack.

Context {num : Type} `{JsArith num}.

Implicit Types (s : AppState num) (p q : Proposal num).

(** Every handler but [vote], [execute] and [createProposal] returns the
    proposal list it was given. *)
Lemma step_proposals (a : Action num) s :
  match a with
  | CreateProposal i n t d e c =>
      exists newP, proposals (step a s) = newP :: proposals s
  | Vote i c n =>
      exists g, proposals (step a s) = map g (proposals s)
                /\ forall q, pid (g q) = pid q /\ executed (g q) = executed q
  | Execute i n => proposals (step a s) = map (executeProposal i n) (proposals s)
  | _ => proposals (step a s) = proposals s
  end.
Proof.
  destruct a; cbn [step];
    try (unfold connect, disconnect, buyMST, airdropGOV, stakeGov, unstakeGov,
           simulateUsage, claimRevenue;
         repeat match goal with
                | |- context [match ?x with _ => _ end] => destruct x
                end; reflexivity).
  - eexists. reflexivity.
  - unfold vote. destruct (me s) as [m|].
    + destruct (leb (votePower m) (lit 0)).
      * exists (fun q => q). rewrite map_id. split; [reflexivity | now split].
      * eexists. split; [reflexivity|]. intro q. cbn beta.
        destruct (negb (String.eqb (pid q) id)); [now split|].
        destruct (endsAt q <? now)%Z; now split.
    + exists (fun q => q). rewrite map_id. split; [reflexivity | now split].
Qed.

Lemma executed_is_final (a : Action num) s p :
  In p (proposals s) -> executed p = true ->
  exists p', In p' (proposals (step a s)) /\ pid p' = pid p /\ executed p' = true.
Proof.
  intros I E. pose proof (step_proposals a s) as S.
  destruct a;
    try (exists p; rewrite S; now repeat split).
  - destruct S as (newP & ->). exists p. repeat split; [now right | exact E].
  - destruct S as (g & -> & G). exists (g p). destruct (G p) as (Gp & Ge).
    repeat split; [now apply in_map | exact Gp | now rewrite Ge].
  - rewrite S. exists (executeProposal id now p).
    repeat split;
      [now apply in_map | apply executeProposal_pid
       | now apply executeProposal_keeps_executed].
Qed.

(** C4: on a list with unique identifiers, once [execute] has run on a
    proposal that was executed already or was past its deadline, running it
    again, at any time, returns the same state; and no handler takes a
    proposal out of the executed state. *)
Theorem C4_execute_idempotent :
  (forall s id (now1 now2 : Z) p,
      NoDup (map pid (proposals s)) -> In p (proposals s) -> pid p = id ->
      executed p = true \/ (endsAt p <= now1)%Z ->
      fst (execute id now2 (fst (execute id now1 s))) = fst (execute id now1 s))
  /\ (forall (a : Action num) s p,
        In p (proposals s) -> executed p = true ->
        exists p', In p' (proposals (step a s))
                   /\ pid p' = pid p /\ executed p' = true).
Proof.
  split; [|exact executed_is_final].
  intros s id now1 now2 p N I E C.
  assert (exists p1, In p1 (proposals (fst (execute id now1 s)))
                     /\ pid p1 = id /\ executed p1 = true) as (p1 & I1 & E1 & X1).
  { destruct (executed p) eqn:X.
    - exists p. repeat split; [|exact E|exact X].
      rewrite <- (executeProposal_executed id now1 p X).
      unfold execute. cbn [fst proposals withParams withProposals].
      now apply in_map.
    - destruct C as [C|C]; [discriminate|].
      destruct (execute_marks s id now1 p I E X C) as (I1 & X1).
      exists (executeProposal id now1 p).
      repeat split; [exact I1 | now rewrite executeProposal_pid | exact X1]. }
  apply (execute_noop _ id now2 p1); [|exact I1|exact E1|now left].
  rewrite execute_keeps_pids. exact N.
Qed.

End NoWayBack.

Lemma C4_execute_idempotent_witness :
  fst (execute "p1" 3000 (fst (execute "p1" 2000 (scenarioC (num := float) 100 50))))
  = fst (execute "p1" 2000 (scenarioC (num := float) 100 50)).
Proof.
  apply (proj1 (C4_execute_idempotent (num := float))
           (scenarioC 100 50) "p1"%string 2000%Z 3000%Z (scenarioCProposal 100 50)).
  - repeat constructor. intros [].
  - left. reflexivity.
  - reflexivity.
  - right. cbn. lia.
Defined.

Section ExecuteExact.

Local Open Scope Qc_scope.

Implicit Types (s : AppState Qc) (p q : Proposal Qc).


End ExecuteExact.


(** Scenario C, evaluated on doubles: 100 for and 50 against applies the
    override and marks the proposal executed; 50 for and 100 against leaves
    Params alone and marks it executed all the same. *)
Example scenarioC_passes :
  let s' := fst (execute "p1" 2000 (scenarioC (num := float) 100 50)) in
  buybackPct (params s') = 7%float /\ map executed (proposals s') = [true].
Proof. split; reflexivity. Qed.

Example scenarioC_fails :
  let s' := fst (execute "p1" 2000 (scenarioC (num := float) 50 100)) in
  params s' = params (scenarioC (num := float) 50 100)
  /\ map executed (proposals s') = [true].
Proof. split; reflexivity. Qed.

(** ** C6, C7 and C8: airdrop, purchase, stake and unstake *)

Section WalletClaims.

Local Open Scope Qc_scope.

Implicit Types (s : AppState Qc) (w m : Wallet Qc).




End WalletClaims.





(** ** C5: the weight of a vote *)

Section VoteClaims.

Local Open Scope Qc_scope.

Implicit Types (s : AppState Qc) (m : Wallet Qc) (p : Proposal Qc).



End VoteClaims.



(** The stored voting power is not recomputed when the boost changes: 100
    staked at boost 2 still votes with 200 after the boost is set to 5. *)
Example stale_boost_vote :
  myStakedGov (stakedThenReboosted (num := float)) = 100%float
  /\ govStakeBoost (params (stakedThenReboosted (num := float))) = 5%float
  /\ map forVotes
       (proposals (fst (vote "p1" For 500 (stakedThenReboosted (num := float)))))
     = [200%float].
Proof. repeat split; vm_compute; reflexivity. Qed.

(** ** C1: the split percentages *)

Section SplitSum.

Local Open Scope Qc_scope.

Implicit Types (s : AppState Qc).



End SplitSum.

(** C1 fails on the code. From the seed (90 / 5 / 5) the buyback slider,
    committed at 20, clamps the treasury share to 0 and leaves 90 + 0 + 20 =
    110; executing a passed proposal that overrides the buyback share with 7
    leaves 90 + 5 + 7 = 102. In both states the component's own self-test
    "Revenue split sums to 100%" fails, while it passes on the seed. *)
Theorem C1_split_sum_not_kept :
  selfTestSplit (seed (num := float)) = true
  /\ splitSum (params (setBuybackPct 20%float (seed (num := float)))) = 110%float
  /\ selfTestSplit (setBuybackPct 20%float (seed (num := float))) = false
  /\ splitSum (params (fst (execute "p1" 2000 (scenarioC (num := float) 100 50))))
     = 102%float
  /\ selfTestSplit (fst (execute "p1" 2000 (scenarioC (num := float) 100 50)))
     = false.
Proof. repeat split; vm_compute; reflexivity. Qed.

(** ** The scenarios on doubles *)

(** Scenario D: the seed wallet holds 10,000 payment tokens; a purchase for
    20,000 returns the very same state and raises the failure toast. *)
Example scenarioD_insufficient_balance :
  buyMST 20000%float (seedConnected (num := float))
  = (seedConnected (num := float), Some "Insufficient USDC"%string).
Proof. reflexivity. Qed.

(** A purchase for 50.3 buys floor(50.3 / 0.5) = 100 tokens and spends 50. *)
Example purchase_spends_whole_tokens :
  let s' := fst (buyMST 50.3%float (seedConnected (num := float))) in
  map mst (wallets s') = [100100%float; 10000%float; 2500%float]
  /\ map usdc (wallets s') = [9950%float; 5000%float; 1000%float]
  /\ circulatingMST s' = 112600%float.
Proof. repeat split; vm_compute; reflexivity. Qed.

(** Ten calls on the seed: three holders share 9.000000000000002 between
    them; ten additions of 0.05 leave the pool just below the price of one
    token, so nothing is burnt on doubles, where exact arithmetic burns one. *)
Example seed_batch_binary64 :
  let s' := fst (simulateUsage 10 noFresh (seedConnected (num := float))) in
  map claimableUSDC (wallets s')
  = [8.000000000000002%float; 0.8000000000000002%float; 0.20000000000000004%float]
  /\ buybackPoolUSDC s' = 0.49999999999999994%float
  /\ circulatingMST s' = 112500%float.
Proof. repeat split; vm_compute; reflexivity. Qed.

Example seed_batch_exact :
  let s' := fst (simulateUsage 10 noFresh (seedConnected (num := Qc))) in
  map (fun w => this (claimableUSDC w)) (wallets s') = [8 # 1; 4 # 5; 1 # 5]%Q
  /\ this (buybackPoolUSDC s') = (0 # 1)%Q
  /\ this (circulatingMST s') = (112499 # 1)%Q.
Proof. repeat split; vm_compute; reflexivity. Qed.

(** * What the handlers leave alone *)

Section Frames.

Context {num : Type} `{JsArith num}.

Implicit Types (s : AppState num) (w m : Wallet num) (a : Action num).

(** [connect] writes the connected address and nothing else. *)
Lemma connect_cases s : exists c, fst (connect s) = withConnected s c.
Proof.
  unfold connect. destruct (wallets s) as [|w ws].
  - exists (connected s). destruct s. reflexivity.
  - eexists. reflexivity.
Qed.

(** Unfolds a handler and splits on every test it makes. *)
Ltac handler_cases :=
  match goal with
  | |- context [connect ?s] =>
      let c := fresh "c" in destruct (connect_cases s) as (c & ->)
  | _ => idtac
  end;
  unfold disconnect, buyMST, airdropGOV, stakeGov, unstakeGov,
    simulateUsage, claimRevenue, createProposal, vote, execute,
    setApiFeeUSDC, setRevenueSharePct, setBuybackPct, setGovStakeBoost,
    setBuybackActive;
  repeat match goal with
         | |- context [match ?x with _ => _ end] => destruct x eqn:?
         end.

(** Every handler rebuilds the wallet list by a [map] that keeps addresses. *)
Lemma step_wallets_map a s :
  exists g, wallets (step a s) = map g (wallets s)
            /\ forall w, address (g w) = address w.
Proof.
  assert (exists g : Wallet num -> Wallet num,
             wallets s = map g (wallets s) /\ forall w, address (g w) = address w)
    as Same.
  { exists (fun w => w). split; [now rewrite map_id | reflexivity]. }
  destruct a; cbn [step]; handler_cases; cbn [fst wallets withWallets
    withConnected withCirculatingMST withCirculatingGOV withProposals
    withParams]; try exact Same;
    try (eexists; split; [reflexivity|];
         intros ?; cbn beta;
         repeat match goal with
                | |- context [if ?c then _ else _] => destruct c
                end; reflexivity).
Qed.

Lemma step_addresses a s :
  map address (wallets (step a s)) = map address (wallets s).
Proof.
  destruct (step_wallets_map a s) as (g & -> & G).
  rewrite map_map. apply map_ext. exact G.
Qed.

Lemma run_addresses (acts : list (Action num)) : forall s,
  map address (wallets (run acts s)) = map address (wallets s).
Proof.
  unfold run. induction acts as [|a acts IH]; intro s; cbn [fold_left].
  - reflexivity.
  - rewrite IH. apply step_addresses.
Qed.

(** X1: no sequence of handler calls adds, removes, reorders or renames a
    wallet. *)
Theorem wallet_set_is_fixed (acts : list (Action num)) (s : AppState num) :
  map address (wallets (run acts s)) = map address (wallets s).
Proof. apply run_addresses. Qed.

Lemma step_constants a s :
  totalSupplyMST (step a s) = totalSupplyMST s
  /\ totalSupplyGOV (step a s) = totalSupplyGOV s
  /\ modelVersion (step a s) = modelVersion s.
Proof.
  destruct a; cbn [step]; handler_cases; now repeat split.
Qed.

(** X2: the two total supplies and the model version are never written: they
    are the same after any sequence of handler calls. *)
Theorem supplies_and_version_constant (acts : list (Action num))
    (s : AppState num) :
  totalSupplyMST (run acts s) = totalSupplyMST s
  /\ totalSupplyGOV (run acts s) = totalSupplyGOV s
  /\ modelVersion (run acts s) = modelVersion s.
Proof.
  revert s. unfold run.
  induction acts as [|a acts IH]; intro s; cbn [fold_left].
  - now repeat split.
  - destruct (IH (step a s)) as (A & B & C).
    destruct (step_constants a s) as (A' & B' & C').
    rewrite A, B, C. now repeat split.
Qed.

(** X3: Params change only through the settings panel and [execute]: every
    other handler returns them as they were. *)
Theorem params_written_by_settings_and_execute_only (a : Action num)
    (s : AppState num) :
  match a with
  | Execute _ _ | SetApiFeeUSDC _ | SetRevenueSharePct _ | SetBuybackPct _
  | SetGovStakeBoost _ | SetBuybackActive _ => True
  | _ => params (step a s) = params s
  end.
Proof.
  destruct a; cbn [step]; try exact I; handler_cases; reflexivity.
Qed.

(** X4: with nobody connected, the handlers that act for the connected wallet
    return the state as it was; only [simulateUsage] says so in a toast. *)
Theorem disconnected_handlers_do_nothing (s : AppState num) (v : num)
    (calls : nat) fresh (id : string) (choice : Choice) (now : Z) :
  connected s = None ->
  buyMST v s = (s, None)
  /\ airdropGOV v s = (s, None)
  /\ stakeGov v s = (s, None)
  /\ unstakeGov v s = (s, None)
  /\ claimRevenue s = (s, None)
  /\ vote id choice now s = (s, None)
  /\ simulateUsage calls fresh s = (s, Some "Connect a wallet to simulate"%string).
Proof.
  intro C.
  assert (me s = None) as M by (unfold me; now rewrite C).
  unfold buyMST, airdropGOV, stakeGov, unstakeGov, claimRevenue, vote,
    simulateUsage. rewrite M. now repeat split.
Qed.

(** X5: [connect] on a non-empty wallet list makes its first wallet the
    connected one, whatever was connected before, and [disconnect] leaves
    nobody connected. *)
Theorem connect_selects_first_wallet (s : AppState num) w
    (ws : list (Wallet num)) :
  wallets s = w :: ws ->
  me (fst (connect s)) = Some w
  /\ snd (connect s) = Some "Wallet connected"%string
  /\ me (fst (disconnect (fst (connect s)))) = None.
Proof.
  intro W. unfold connect, disconnect, me. rewrite W.
  cbn [fst snd connected wallets withConnected]. rewrite W.
  cbn [find]. rewrite String.eqb_refl. now repeat split.
Qed.

(** Handlers other than [simulateUsage] touch the connected wallet only. *)
Lemma step_other_wallets a s :
  match a with
  | SimulateUsage _ _ => True
  | _ =>
      exists g, wallets (step a s) = map g (wallets s)
                /\ forall w, connected s <> Some (address w) -> g w = w
  end.
Proof.
  assert (exists g : Wallet num -> Wallet num,
             wallets s = map g (wallets s)
             /\ forall w, connected s <> Some (address w) -> g w = w) as Same.
  { exists (fun w => w). split; [now rewrite map_id | reflexivity]. }
  destruct a; cbn [step]; try exact I;
    try (handler_cases; exact Same);
    unfold buyMST, airdropGOV, stakeGov, unstakeGov, claimRevenue;
    destruct (me s) as [m|] eqn:M; try exact Same;
    pose proof (me_address s m M) as C;
    repeat match goal with
           | |- context [if ?c then _ else _] => destruct c
           end;
    cbn [fst wallets withWallets withCirculatingMST withCirculatingGOV];
    try exact Same;
    (eexists; split; [reflexivity|]; intros w N; cbn beta;
     destruct (String.eqb (address w) (address m)) eqn:E; [|reflexivity];
     apply String.eqb_eq in E; exfalso; apply N; now rewrite E).
Qed.

(** X6: purchase, airdrop, stake, unstake and claim (and every handler other
    than [simulateUsage]) leave each wallet that is not the connected one
    exactly as it was, in its place. *)
Theorem only_connected_wallet_changes (a : Action num) (s : AppState num) :
  match a with
  | SimulateUsage _ _ => True
  | _ =>
      Forall2 (fun w w' => connected s <> Some (address w) -> w' = w)
        (wallets s) (wallets (step a s))
  end.
Proof.
  pose proof (step_other_wallets a s) as S.
  destruct a; try exact I;
    (destruct S as (g & -> & G);
     induction (wallets s) as [|w ws IH]; cbn [map]; constructor;
     [ intro N; now apply G | exact IH ]).
Qed.

(** X7: a usage batch writes nothing into a wallet but its accrued revenue:
    nobody is charged the fee, and addresses, security, governance and staked
    balances and voting power are as before. *)
Theorem simulateUsage_touches_accruals_only (calls : nat) fresh
    (s : AppState num) :
  Forall2
    (fun w w' =>
       address w' = address w /\ mst w' = mst w /\ gov w' = gov w
       /\ usdc w' = usdc w /\ votingPower w' = votingPower w
       /\ stakedGov w' = stakedGov w)
    (wallets s) (wallets (fst (simulateUsage calls fresh s))).
Proof.
  unfold simulateUsage. destruct (me s) as [m|]; cbn [fst wallets].
  - unfold distribute. induction (wallets s) as [|w ws IH]; cbn [map];
      constructor; [|exact IH].
    destruct (leb (mst w) (lit 0)); now repeat split.
  - induction (wallets s) as [|w ws IH]; constructor; [now repeat split | exact IH].
Qed.

End Frames.

(** * The usage log and the proposal list *)

Section LogAndProposals.

Context {num : Type} `{JsArith num}.

Implicit Types (s : AppState num) (w m : Wallet num) (p q : Proposal num)
  (a : Action num).



Lemma step_usage a s : exists l, usage (step a s) = (usage s ++ l)%list.
Proof.
  assert (exists l : list (UsageEvent num), usage s = (usage s ++ l)%list) as Same
    by (exists []; now rewrite app_nil_r).
  destruct a; cbn [step];
    try (match goal with
         | |- context [connect ?s] =>
             destruct (connect_cases s) as (c & ->)
         end; exact Same);
    unfold disconnect, buyMST, airdropGOV, stakeGov, unstakeGov,
      simulateUsage, claimRevenue, createProposal, vote, execute,
      setApiFeeUSDC, setRevenueSharePct, setBuybackPct, setGovStakeBoost,
      setBuybackActive;
    repeat match goal with
           | |- context [match ?x with _ => _ end] => destruct x
           end;
    cbn [fst usage withWallets withConnected withCirculatingMST
      withCirculatingGOV withProposals withParams];
    try exact Same.
  eexists. reflexivity.
Qed.

(** X9: the usage log is append-only: after any sequence of handler calls the
    log it started from is still there, as a prefix. *)
Theorem usage_log_is_append_only (acts : list (Action num)) (s : AppState num) :
  exists l, usage (run acts s) = (usage s ++ l)%list.
Proof.
  revert s. unfold run.
  induction acts as [|a acts IH]; intro s; cbn [fold_left].
  - exists []. now rewrite app_nil_r.
  - destruct (IH (step a s)) as (l & ->).
    destruct (step_usage a s) as (l' & ->).
    exists (l' ++ l)%list. now rewrite app_assoc.
Qed.

Lemma withProposals_same s : withProposals s (proposals s) = s.
Proof. destruct s. reflexivity. Qed.

Lemma me_withProposals s ps : me (withProposals s ps) = me s.
Proof. reflexivity. Qed.

(** The [proposals.map] callback of [vote]. *)
Lemma vote_proposals s id choice now m :
  me s = Some m ->
  leb (votePower m) (lit 0) = false ->
  vote id choice now s
  = (withProposals s
       (map (fun p =>
               if String.eqb (pid p) id && (now <=? endsAt p)%Z
               then addVote p choice (votePower m) else p)
            (proposals s)),
     Some "Vote cast"%string).
Proof.
  intros M P. unfold vote. rewrite M, P. f_equal. f_equal.
  apply map_ext. intro p.
  destruct (String.eqb (pid p) id); cbn [negb andb]; [|reflexivity].
  rewrite (Z.leb_antisym (endsAt p) now).
  destruct (endsAt p <? now)%Z; reflexivity.
Qed.


(** X11: a vote with positive weight for an identifier that no proposal has,
    or for proposals whose deadline is before [now], changes nothing and still
    raises the toast "Vote cast". *)
Theorem vote_without_effect_is_still_cast (s : AppState num) (id : string)
    (choice : Choice) (now : Z) m :
  me s = Some m ->
  leb (votePower m) (lit 0) = false ->
  (forall p, In p (proposals s) -> pid p <> id \/ (endsAt p < now)%Z) ->
  vote id choice now s = (s, Some "Vote cast"%string).
Proof.
  intros M P N. rewrite (vote_proposals s id choice now m M P). f_equal.
  rewrite map_fixed; [apply withProposals_same|].
  intros p I. destruct (N p I) as [D|D].
  - apply String.eqb_neq in D. now rewrite D.
  - assert ((now <=? endsAt p)%Z = false) as -> by (apply Z.leb_gt; exact D).
    now rewrite andb_false_r.
Qed.

(** X12: [execute] with an identifier that no proposal has returns the state
    as it was, and still raises the toast "Proposal executed". *)
Theorem execute_unknown_id (s : AppState num) (id : string) (now : Z) :
  (forall p, In p (proposals s) -> pid p <> id) ->
  execute id now s = (s, Some "Proposal executed"%string).
Proof.
  intro N. unfold execute. f_equal.
  assert (map (executeProposal id now) (proposals s) = proposals s) as ->.
  { apply map_fixed. intros p I. apply executeProposal_other.
    apply String.eqb_neq. exact (N p I). }
  assert (executeParams id now s = params s) as ->.
  { unfold executeParams.
    destruct (find (fun pp => String.eqb (pid pp) id) (proposals s)) as [q|] eqn:F;
      [|reflexivity].
    apply find_some in F. destruct F as (I & E). apply String.eqb_eq in E.
    exfalso. exact (N q I E). }
  apply withParams_withProposals_same.
Qed.

(** X13: proposal identifiers stay unique: a handler keeps them pairwise
    distinct, provided [createProposal] is given an identifier that is not in
    the list yet. *)
Theorem proposal_ids_stay_unique (a : Action num) (s : AppState num) :
  NoDup (map pid (proposals s)) ->
  match a with
  | CreateProposal newId _ _ _ _ _ => ~ In newId (map pid (proposals s))
  | _ => True
  end ->
  NoDup (map pid (proposals (step a s))).
Proof.
  intros N F. pose proof (step_proposals a s) as S.
  destruct a; try (rewrite S; exact N).
  - destruct S as (newP & E).
    cbn [step createProposal fst proposals withProposals] in E |- *.
    constructor; assumption.
  - destruct S as (g & -> & G). rewrite map_map.
    erewrite map_ext; [exact N|]. intro q. apply G.
  - rewrite S, map_map.
    erewrite map_ext; [exact N|]. intro q. apply executeProposal_pid.
Qed.



End LogAndProposals.

(** * The ledger in exact arithmetic *)

Section ExactLedger.

Local Open Scope Qc_scope.

Implicit Types (s : AppState Qc) (w m : Wallet Qc) (ws : list (Wallet Qc))
  (a : Action Qc).


Lemma sumOf_nil : sumOf (@nil Qc) = 0.
Proof. reflexivity. Qed.












End ExactLedger.

(** * Claims, purchases and stakes in exact arithmetic *)

Section ExactWallet.

Local Open Scope Qc_scope.

Implicit Types (s : AppState Qc) (w m : Wallet Qc).






End ExactWallet.

(** * Sliders, self-tests and whole batches in exact arithmetic *)

Section ExactParams.

Local Open Scope Qc_scope.

Implicit Types (s : AppState Qc) (w m : Wallet Qc).









End ExactParams.

Section BuybackSwitch.

Context {num : Type} `{JsArith num}.

(** X26: with the buyback switch off nothing is burnt: a batch run after
    [setBuybackActive false] leaves the circulating supply as it was and adds
    the whole buyback share of the batch to the pool. *)
Theorem buyback_switch_off_stops_the_burn (s : AppState num) (calls : nat)
    fresh m :
  me s = Some m ->
  let off := setBuybackActive false s in
  let s' := fst (simulateUsage calls fresh off) in
  circulatingMST s' = circulatingMST s
  /\ buybackPoolUSDC s'
     = add (buybackPoolUSDC s) (toBuyback (usageTotals off m fresh calls))
  /\ buybackActive (params s') = false.
Proof.
  intros M off s'.
  assert (me off = Some m) as M' by exact M.
  subst s'. unfold simulateUsage. rewrite M'.
  cbn [fst circulatingMST buybackPoolUSDC params].
  unfold buyback. cbn [off setBuybackActive params withParams buybackActive andb
    newCirculatingMST poolAfter circulatingMST buybackPoolUSDC].
  now repeat split.
Qed.

End BuybackSwitch.

(** * The properties above at concrete states *)

Lemma disconnected_handlers_do_nothing_witness :
  buyMST 50%float (seed (num := float)) = (seed (num := float), None)
  /\ airdropGOV 50%float (seed (num := float)) = (seed (num := float), None)
  /\ stakeGov 50%float (seed (num := float)) = (seed (num := float), None)
  /\ unstakeGov 50%float (seed (num := float)) = (seed (num := float), None)
  /\ claimRevenue (seed (num := float)) = (seed (num := float), None)
  /\ vote "p1" For 500 (seed (num := float)) = (seed (num := float), None)
  /\ simulateUsage 10 noFresh (seed (num := float))
     = (seed (num := float), Some "Connect a wallet to simulate"%string).
Proof.
  apply (disconnected_handlers_do_nothing (seed (num := float)) 50%float 10%nat
           noFresh "p1"%string For 500%Z).
  reflexivity.
Defined.

Lemma connect_selects_first_wallet_witness :
  me (fst (connect (seed (num := float))))
  = Some (seedWallet W1 100000 500000 10000)
  /\ snd (connect (seed (num := float))) = Some "Wallet connected"%string
  /\ me (fst (disconnect (fst (connect (seed (num := float)))))) = None.
Proof.
  apply (connect_selects_first_wallet (seed (num := float))
           (seedWallet W1 100000 500000 10000)
           [seedWallet W2 10000 100000 5000; seedWallet W3 2500 25000 1000]).
  reflexivity.
Defined.



Lemma vote_without_effect_is_still_cast_witness :
  vote "p1" For 1500 (openProposal (num := float))
  = (openProposal (num := float), Some "Vote cast"%string).
Proof.
  apply (vote_without_effect_is_still_cast (openProposal (num := float))
           "p1"%string For 1500%Z (seedWallet W1 100000 500000 10000)).
  - reflexivity.
  - reflexivity.
  - intros p [<-|[]]. right. cbn. lia.
Defined.

Lemma execute_unknown_id_witness :
  execute "p2" 2000 (scenarioC (num := float) 100 50)
  = (scenarioC (num := float) 100 50, Some "Proposal executed"%string).
Proof.
  apply (execute_unknown_id (scenarioC (num := float) 100 50) "p2"%string 2000%Z).
  intros p [<-|[]]. discriminate.
Defined.

Lemma proposal_ids_stay_unique_witness :
  NoDup
    (map pid
       (proposals
          (step (CreateProposal "p2" "2024-01-02T00:00:00.000Z" "Lower fee"
                   "Cheaper calls" 5000 buybackTo7)
             (scenarioC (num := float) 100 50)))).
Proof.
  apply (proposal_ids_stay_unique
           (CreateProposal "p2" "2024-01-02T00:00:00.000Z" "Lower fee"
              "Cheaper calls" 5000 buybackTo7)
           (scenarioC (num := float) 100 50)).
  - repeat constructor. intros [].
  - intros [E|[]]. discriminate E.
Defined.










Lemma buyback_switch_off_stops_the_burn_witness :
  circulatingMST
    (fst (simulateUsage 10 noFresh
            (setBuybackActive false (seedConnected (num := Qc)))))
  = circulatingMST (seedConnected (num := Qc)).
Proof.
  refine (proj1
    (buyback_switch_off_stops_the_burn (seedConnected (num := Qc)) 10%nat
       noFresh (seedWallet W1 100000 500000 10000) _)).
  reflexivity.
Defined.

